(** * build.py : a command-line wrapper around [flutter build]

    A shallow embedding of [src/build.py] and the properties of its
    command composition, its exit status and its use of the external tool.

    The script prints, exits through [sys.exit] and starts one child process
    with [subprocess.run(cmd, check=True)].  These effects are modelled in
    an exception monad over a state monad: the state is the ordered trace of
    what the process did (text printed, calls of [subprocess.run]); an
    exception leaves the trace as it was when the exception was raised, as
    in Python. *)

From Stdlib Require Import String List ZArith Bool Lia.
From ExtLib Require Import Structures.Monad Structures.MonadState Structures.MonadExc.
From ExtLib Require Import Data.Monads.StateMonad Data.Monads.EitherMonad.
Import ListNotations.
Import MonadNotation.
Local Open Scope monad_scope.
Local Open Scope string_scope.

(** ** The Python runtime the script relies on *)

Module Py.

(** What the process does, in order. *)
Inductive event : Type :=
| Print (text : string)            (* one [print] call: text written to standard output *)
| Spawn (argv : list string).      (* [subprocess.run] called with this argument vector *)

Definition trace := list event.

(** The exceptions that occur in the script: [sys.exit(n)] raises
    [SystemExit(n)]; [subprocess.run(..., check=True)] raises
    [CalledProcessError(returncode, cmd)] for a child that returned a code
    other than zero, and [ValueError] for an argument that no child can be
    given. *)
Inductive exn : Type :=
| SystemExit (code : Z)
| CalledProcessError (returncode : Z) (cmd : list string)
| ValueError.

Definition M : Type -> Type := eitherT exn (state trace).

(** [run m t] executes [m] from trace [t]: the outcome and the final trace. *)
Definition run {A} (m : M A) (t : trace) : (exn + A) * trace :=
  runState (unEitherT m) t.

Definition emit (e : event) : M unit :=
  t <- get ;; put (t ++ [e])%list.

(** The line feed that [print] ends its output with. *)
Definition newline : string :=
  String (Ascii.ascii_of_nat 10) EmptyString.

(** [print(a1, ..., an)]: the arguments separated by one space, then a
    newline.  Every argument the script prints is a [str]. *)
Definition print (args : list string) : M unit :=
  emit (Print (String.concat " " args ++ newline)).

(** [sys.exit(code)] *)
Definition sys_exit {A} (code : Z) : M A := raise (SystemExit code).

(** [" ".join(cmd)] *)
Definition join (sep : string) (l : list string) : string :=
  String.concat sep l.

(** Whether a string holds the character U+0000. *)
Fixpoint has_nul (s : string) : bool :=
  match s with
  | EmptyString => false
  | String c s' => Ascii.eqb c Ascii.zero || has_nul s'
  end.

Section Subprocess.
(** The external program: the exit code it returns for an argument
    vector when it is started.  The script inherits the streams and
    captures nothing, so the exit code is all it sees of the child. *)
Variable tool : list string -> Z.

(** [subprocess.run(cmd, check=check)].  An argument that holds a NUL
    character cannot be passed to a program: the call raises [ValueError]
    before any child exists.  Otherwise it starts the child, waits for it,
    and with [check=True] raises [CalledProcessError] when the return code
    is not zero.  Returns the return code. *)
Definition subprocess_run (cmd : list string) (check : bool) : M Z :=
  emit (Spawn cmd) ;;
  if existsb has_nul cmd then raise ValueError
  else
    let returncode := tool cmd in
    if check && negb (returncode =? 0)%Z
    then raise (CalledProcessError returncode cmd)
    else ret returncode.
End Subprocess.

(** The exit status of the interpreter when the main module finishes with
    the given outcome: 0 on a normal return, the code of an uncaught
    [SystemExit], and 1 (after a traceback on standard error) for any
    other uncaught exception. *)
Definition exit_status {A} (r : exn + A) : Z :=
  match r with
  | inr _ => 0
  | inl (SystemExit code) => code
  | inl (CalledProcessError _ _) => 1
  | inl ValueError => 1
  end%Z.

(** The argument vectors of the [subprocess.run] calls in a trace, in
    order. *)
Fixpoint spawned (t : trace) : list (list string) :=
  match t with
  | [] => []
  | Spawn argv :: t' => argv :: spawned t'
  | Print _ :: t' => spawned t'
  end.

(** The text written to standard output in a trace, in order. *)
Fixpoint printed (t : trace) : list string :=
  match t with
  | [] => []
  | Print s :: t' => s :: printed t'
  | Spawn _ :: t' => printed t'
  end.

End Py.

Import Py.

(** ** src/build.py *)

Section Build.

Variable tool : list string -> Z.

(** Line 8: [build_mode = "--release" if release else "--debug"]. *)
Definition build_mode (release : bool) : string :=
  if release then "--release" else "--debug".

(** [build_flutter(flavor, platform, release=True)], lines 6-42.  The
    local [cmd] is rebound in each branch; [build_mode] is computed and
    not used afterwards, as in the source. *)
Definition build_flutter (flavor platform : string) (release : bool) : M unit :=
  let target_file := "lib/main.dart" in
  let build_mode := build_mode release in
  let dart_define := "--dart-define=ENV=" ++ flavor in
  let cmd : list string := [] in
  cmd <-
    (if platform =? "android" then
       let cmd := [ "flutter"; "build"; "apk";
                    "--flavor"; flavor;
                    "-t"; target_file;
                    dart_define ] in
       if release then ret (cmd ++ ["--release"])%list
       else ret (cmd ++ ["--debug"])%list
     else if platform =? "ios" then
       let cmd := [ "flutter"; "build"; "ios";
                    "--flavor"; flavor;
                    "-t"; target_file;
                    dart_define ] in
       if release then ret (cmd ++ ["--release"])%list
       else ret (cmd ++ ["--debug"])%list
     else
       print ["❌ 不支持的平台: " ++ platform] ;;
       sys_exit 1) ;;
  print ["🚀 打包命令："; join " " cmd] ;;
  subprocess_run tool cmd true ;;
  print ["✅ 打包完成：平台 ="; platform; ", 环境 ="; flavor].

(** The result of [parser.parse_args()]: one attribute per option
    declared in lines 46-48.  [debug] is a [store_true] destination: it is
    [True] exactly when [--debug] was given. *)
Record Namespace : Type := mkNamespace
  { flavor : string; platform : string; debug : bool }.

(** [argparse]'s parsing of [sys.argv] is library code: it either returns
    a namespace or prints and raises [SystemExit]. *)
Variable parse_args : M Namespace.

(** [main()], lines 44-55. *)
Definition main : M unit :=
  args <- parse_args ;;
  build_flutter args.(flavor) args.(platform) (negb args.(debug)).

(** The variant the design notes describe: the mode token is computed
    once, into [build_mode], and that variable is appended in both
    platform branches.  Everything else is [build_flutter]. *)
Definition build_flutter_reuse (flavor platform : string) (release : bool) : M unit :=
  let target_file := "lib/main.dart" in
  let build_mode := build_mode release in
  let dart_define := "--dart-define=ENV=" ++ flavor in
  let cmd : list string := [] in
  cmd <-
    (if platform =? "android" then
       let cmd := [ "flutter"; "build"; "apk";
                    "--flavor"; flavor;
                    "-t"; target_file;
                    dart_define ] in
       ret (cmd ++ [build_mode])%list
     else if platform =? "ios" then
       let cmd := [ "flutter"; "build"; "ios";
                    "--flavor"; flavor;
                    "-t"; target_file;
                    dart_define ] in
       ret (cmd ++ [build_mode])%list
     else
       print ["❌ 不支持的平台: " ++ platform] ;;
       sys_exit 1) ;;
  print ["🚀 打包命令："; join " " cmd] ;;
  subprocess_run tool cmd true ;;
  print ["✅ 打包完成：平台 ="; platform; ", 环境 ="; flavor].

End Build.

Arguments main tool parse_args : clear implicits.

(** ** Observations *)

(** The token sequences [build_flutter] hands to [subprocess.run] when it
    is called in a fresh process: one per call. *)
Definition composed (tool : list string -> Z)
    (flavor platform : string) (release : bool) : list (list string) :=
  spawned (snd (run (build_flutter tool flavor platform release) [])).

(** The exit status of a process whose main module is [m]. *)
Definition process_exit_code {A} (m : M A) : Z :=
  exit_status (fst (run m [])).

(** What a process whose main module is [m] writes to standard output. *)
Definition process_stdout {A} (m : M A) : list string :=
  printed (snd (run m [])).

(** How many times a token occurs in a token sequence. *)
Definition occurrences (tok : string) (cmd : list string) : nat :=
  length (filter (String.eqb tok) cmd).

(** The two mode tokens. *)
Definition is_mode_token (tok : string) : bool :=
  (tok =? "--release") || (tok =? "--debug").

Definition mode_tokens (cmd : list string) : nat :=
  length (filter is_mode_token cmd).

(** The artifact token of a supported platform. *)
Definition artifact_of (platform : string) : string :=
  if platform =? "android" then "apk" else "ios".

(** The shape of the command line of a supported platform. *)
Definition command_line (artifact flavor : string) (release : bool) : list string :=
  [ "flutter"; "build"; artifact; "--flavor"; flavor; "-t"; "lib/main.dart";
    "--dart-define=ENV=" ++ flavor; build_mode release ].

(** The line printed before the child process starts. *)
Definition announce (cmd : list string) : string :=
  String.concat " " ["🚀 打包命令："; join " " cmd] ++ newline.

(** The line printed after the child process succeeded. *)
Definition success_message (platform flavor : string) : string :=
  String.concat " " ["✅ 打包完成：平台 ="; platform; ", 环境 ="; flavor] ++ newline.

(** The line printed for a platform that is not supported. *)
Definition unsupported_message (platform : string) : string :=
  String.concat " " ["❌ 不支持的平台: " ++ platform] ++ newline.

(** The define token carrying the flavor. *)
Definition define_token (flavor : string) : string :=
  "--dart-define=ENV=" ++ flavor.

(** A token sequence for [(flavor, platform)] with exactly one mode token,
    exactly one define token and the artifact token of the platform. *)
Definition well_formed (flavor platform : string) (cmd : list string) : Prop :=
  mode_tokens cmd = 1 /\
  occurrences (define_token flavor) cmd = 1 /\
  In (artifact_of platform) cmd.

(** [build_flutter] composes one token sequence, and it is well formed. *)
Definition composes_well_formed (tool : list string -> Z)
    (flavor platform : string) (release : bool) : Prop :=
  exists cmd, composed tool flavor platform release = [cmd] /\
              well_formed flavor platform cmd.

(** A failure of the child is passed on: whenever the child that was
    started exits with a code other than zero, the process exits with
    that same code and the success line is not printed. *)
Definition propagates_child_code (tool : list string -> Z)
    (flavor platform : string) (release : bool) : Prop :=
  forall cmd, composed tool flavor platform release = [cmd] ->
    tool cmd <> 0%Z ->
    process_exit_code (build_flutter tool flavor platform release) = tool cmd /\
    ~ In (success_message platform flavor)
         (process_stdout (build_flutter tool flavor platform release)).


(** The platforms the two branches of [build_flutter] accept. *)
Definition supported (platform : string) : bool :=
  (platform =? "android") || (platform =? "ios").

(** Lines 57-58, the top level of the module: [main()] is called when the
    file runs as a script, that is when [__name__] is ["__main__"]; under
    any other name (an import) the top level only defines the two
    functions. *)
Definition module_toplevel (tool : list string -> Z)
    (parse_args : M Namespace) (name : string) : M unit :=
  if name =? "__main__" then main tool parse_args else ret tt.

(** ** How [build_flutter] runs *)

Section Runs.

Variable tool : list string -> Z.

(** The equations of the monad, on [run]. *)
Lemma run_ret {A} (a : A) (t : trace) :
  run (ret a) t = (inr a, t).
Proof. reflexivity. Qed.

Lemma run_raise {A} (e : exn) (t : trace) :
  run (raise e : M A) t = (inl e, t).
Proof. reflexivity. Qed.

Lemma run_bind {A B} (m : M A) (k : A -> M B) (t : trace) :
  run (bind m k) t =
    match run m t with
    | (inl e, t') => (inl e, t')
    | (inr a, t') => run (k a) t'
    end.
Proof.
  unfold run; cbn.
  destruct (runState (unEitherT m) t) as [[e | a] t']; reflexivity.
Qed.

Lemma run_emit (e : event) (t : trace) :
  run (emit e) t = (inr tt, (t ++ [e])%list).
Proof. reflexivity. Qed.

Lemma run_print (args : list string) (t : trace) :
  run (print args) t =
    (inr tt, (t ++ [Print (String.concat " " args ++ newline)])%list).
Proof. reflexivity. Qed.

Lemma run_sys_exit {A} (code : Z) (t : trace) :
  run (sys_exit code : M A) t = (inl (SystemExit code), t).
Proof. reflexivity. Qed.

Lemma run_subprocess_run (cmd : list string) (t : trace) :
  run (subprocess_run tool cmd true) t =
    (if existsb has_nul cmd then inl ValueError
     else if (tool cmd =? 0)%Z then inr (tool cmd)
     else inl (CalledProcessError (tool cmd) cmd),
     (t ++ [Spawn cmd])%list).
Proof.
  unfold subprocess_run. rewrite run_bind, run_emit. cbn [andb].
  destruct (existsb has_nul cmd); [reflexivity |].
  destruct (tool cmd =? 0)%Z; reflexivity.
Qed.

(** What [build_flutter] does once [cmd] is composed (lines 40-42):
    announce, call [subprocess.run], and report success or raise. *)
Lemma run_tail (cmd : list string) (p f : string) (t : trace) :
  run (print ["🚀 打包命令："; join " " cmd] ;;
       subprocess_run tool cmd true ;;
       print ["✅ 打包完成：平台 ="; p; ", 环境 ="; f]) t =
    if existsb has_nul cmd
    then (inl ValueError,
          (t ++ [Print (announce cmd); Spawn cmd])%list)
    else if (tool cmd =? 0)%Z
    then (inr tt,
          (t ++ [Print (announce cmd); Spawn cmd;
                 Print (success_message p f)])%list)
    else (inl (CalledProcessError (tool cmd) cmd),
          (t ++ [Print (announce cmd); Spawn cmd])%list).
Proof.
  rewrite run_bind, run_print, run_bind, run_subprocess_run.
  destruct (existsb has_nul cmd); [| destruct (tool cmd =? 0)%Z].
  - rewrite <- !app_assoc. reflexivity.
  - rewrite run_print, <- !app_assoc. reflexivity.
  - rewrite <- !app_assoc. reflexivity.
Qed.

(** Of the nine tokens only the flavor can hold a NUL. *)
Lemma has_nul_command_line (p f : string) (r : bool) :
  p = "android" \/ p = "ios" ->
  existsb has_nul (command_line (artifact_of p) f r) = has_nul f.
Proof.
  intros [-> | ->]; destruct r; cbn; destruct (has_nul f); reflexivity.
Qed.

Lemma run_supported (f p : string) (r : bool) (t : trace) :
  p = "android" \/ p = "ios" ->
  let cmd := command_line (artifact_of p) f r in
  run (build_flutter tool f p r) t =
    if has_nul f
    then (inl ValueError,
          (t ++ [Print (announce cmd); Spawn cmd])%list)
    else if (tool cmd =? 0)%Z
    then (inr tt,
          (t ++ [Print (announce cmd); Spawn cmd;
                 Print (success_message p f)])%list)
    else (inl (CalledProcessError (tool cmd) cmd),
          (t ++ [Print (announce cmd); Spawn cmd])%list).
Proof.
  intros Hp cmd. rewrite <- (has_nul_command_line p f r Hp).
  destruct Hp as [-> | ->]; subst cmd; unfold build_flutter; cbv zeta;
    rewrite run_bind; destruct r; cbn [String.eqb Ascii.eqb Bool.eqb];
    rewrite run_ret; apply run_tail.
Qed.

(** On any other platform: one line of output, then [sys.exit(1)]. *)
Lemma run_unsupported (f p : string) (r : bool) (t : trace) :
  p <> "android" -> p <> "ios" ->
  run (build_flutter tool f p r) t =
    (inl (SystemExit 1), (t ++ [Print (unsupported_message p)])%list).
Proof.
  intros Ha Hi. unfold build_flutter; cbv zeta.
  apply String.eqb_neq in Ha, Hi. rewrite Ha, Hi.
  rewrite run_bind, run_bind, run_print, run_sys_exit. reflexivity.
Qed.

End Runs.


(** ** Facts about tokens *)

Lemma length_append (a b : string) :
  String.length (a ++ b) = String.length a + String.length b.
Proof. induction a as [| c a IH]; cbn; [reflexivity | now rewrite IH]. Qed.

(** A flavor is never its own define token: the token is longer. *)
Lemma define_token_neq (f : string) : (define_token f =? f) = false.
Proof.
  apply String.eqb_neq. intros H.
  apply (f_equal String.length) in H.
  unfold define_token in H. rewrite length_append in H. cbn in H. lia.
Qed.

Lemma spawned_app (t u : trace) :
  spawned (t ++ u)%list = (spawned t ++ spawned u)%list.
Proof.
  induction t as [| [s | argv] t IH]; cbn; [reflexivity | exact IH |].
  now rewrite IH.
Qed.

Lemma printed_app (t u : trace) :
  printed (t ++ u)%list = (printed t ++ printed u)%list.
Proof.
  induction t as [| [s | argv] t IH]; cbn; [reflexivity | | exact IH].
  now rewrite IH.
Qed.

Lemma mode_tokens_command_line (a f : string) (r : bool) :
  a = "apk" \/ a = "ios" ->
  is_mode_token f = false ->
  mode_tokens (command_line a f r) = 1.
Proof.
  intros Ha Hf. unfold mode_tokens, command_line.
  destruct Ha as [-> | ->]; destruct r; cbn; rewrite Hf; reflexivity.
Qed.

Lemma define_occurs_once (a f : string) (r : bool) :
  a = "apk" \/ a = "ios" ->
  occurrences (define_token f) (command_line a f r) = 1.
Proof.
  intros Ha. unfold occurrences, command_line.
  destruct Ha as [-> | ->]; destruct r; cbn -[define_token];
    fold (define_token f);
    rewrite define_token_neq, String.eqb_refl; reflexivity.
Qed.

Lemma artifact_of_supported (p : string) :
  p = "android" \/ p = "ios" ->
  artifact_of p = "apk" \/ artifact_of p = "ios".
Proof. intros [-> | ->]; [left | right]; reflexivity. Qed.

(** ** What [build_flutter] composes *)

Section Composition.

Variable tool : list string -> Z.

Lemma composed_supported (f p : string) (r : bool) :
  p = "android" \/ p = "ios" ->
  composed tool f p r = [command_line (artifact_of p) f r].
Proof.
  intros Hp. unfold composed. rewrite (run_supported tool f p r [] Hp).
  cbv zeta. destruct (has_nul f); [| destruct (tool _ =? 0)%Z]; reflexivity.
Qed.

Lemma composed_unsupported (f p : string) (r : bool) :
  p <> "android" -> p <> "ios" -> composed tool f p r = [].
Proof.
  intros Ha Hi. unfold composed.
  rewrite (run_unsupported tool f p r [] Ha Hi). reflexivity.
Qed.

(** A call adds to the [subprocess.run] calls of the trace what
    [composed] says, whatever tool answers and whatever happened before. *)
Lemma spawned_build_flutter (tool' : list string -> Z)
    (f p : string) (r : bool) (t : trace) :
  spawned (snd (run (build_flutter tool f p r) t)) =
    (spawned t ++ composed tool' f p r)%list.
Proof.
  destruct (String.eqb_spec p "android") as [Ha | Ha];
    [| destruct (String.eqb_spec p "ios") as [Hi | Hi]].
  1, 2: assert (Hp : p = "android" \/ p = "ios") by tauto;
        unfold composed; rewrite !run_supported by exact Hp; cbv zeta;
        destruct (has_nul f);
        [| destruct (tool _ =? 0)%Z; destruct (tool' _ =? 0)%Z];
        cbn [snd]; rewrite spawned_app; reflexivity.
  unfold composed. rewrite !run_unsupported by assumption. cbn [snd].
  rewrite spawned_app. reflexivity.
Qed.

(** Whatever the flavor, as long as it is not itself a mode token. *)
Lemma composed_well_formed (f p : string) (r : bool) :
  p = "android" \/ p = "ios" ->
  is_mode_token f = false ->
  composes_well_formed tool f p r.
Proof.
  intros Hp Hf. exists (command_line (artifact_of p) f r).
  split; [apply composed_supported; exact Hp |].
  pose proof (artifact_of_supported p Hp) as Ha.
  repeat split.
  - apply mode_tokens_command_line; assumption.
  - apply define_occurs_once; assumption.
  - unfold command_line. cbn. tauto.
Qed.

End Composition.

(** ** The entry point *)

Section EntryPoint.

Variable tool : list string -> Z.

(** [main] parses, and when parsing returns a namespace it calls
    [build_flutter] with [release = not args.debug]; when parsing raises,
    nothing else happens. *)
Lemma run_main (parse_args : M Namespace) (t : trace) :
  run (main tool parse_args) t =
    match run parse_args t with
    | (inl e, t') => (inl e, t')
    | (inr args, t') =>
        run (build_flutter tool (flavor args) (platform args)
               (negb (debug args))) t'
    end.
Proof. unfold main. apply run_bind. Qed.

Lemma run_main_parsed (args : Namespace) (t : trace) :
  run (main tool (ret args)) t =
    run (build_flutter tool (flavor args) (platform args)
           (negb (debug args))) t.
Proof. rewrite run_main, run_ret. reflexivity. Qed.

End EntryPoint.

(** ** Properties of the specification *)

(** C1, as the specification states it, fails: a flavor is any string, and
    the flavor ["--debug"] puts a second mode token into the command line of
    a release build. *)
Lemma flavor_mode_token_counterexample :
  "--debug" <> "" /\
  ~ composes_well_formed (fun _ => 0%Z) "--debug" "android" true.
Proof.
  split; [discriminate |].
  intros [cmd [Hc [Hm _]]].
  rewrite composed_supported in Hc by (left; reflexivity).
  injection Hc as <-. cbv in Hm. discriminate.
Qed.

(** C1 (amended): for a supported platform and a non-empty flavor that is
    not itself one of the two mode tokens, [build_flutter] composes one
    token sequence; it contains exactly one mode token, exactly one
    occurrence of the define token of the flavor, and the artifact token of
    the platform. *)
Theorem build_flutter_well_formed
    (tool : list string -> Z) (f p : string) (r : bool) :
  p = "android" \/ p = "ios" ->
  f <> "" ->
  f <> "--release" -> f <> "--debug" ->
  composes_well_formed tool f p r.
Proof.
  intros Hp _ Hr Hd. apply composed_well_formed; [exact Hp |].
  unfold is_mode_token.
  apply String.eqb_neq in Hr, Hd. rewrite Hr, Hd. reflexivity.
Qed.

Lemma build_flutter_well_formed_witness :
  ("android" = "android" \/ "android" = "ios") /\
  "dev" <> "" /\ "dev" <> "--release" /\ "dev" <> "--debug" /\
  composes_well_formed (fun _ => 0%Z) "dev" "android" true.
Proof.
  repeat split; try discriminate; [left; reflexivity |].
  apply build_flutter_well_formed;
    [left; reflexivity | discriminate | discriminate | discriminate].
Defined.

(** The one mode token of C1 is the one of the requested mode, and it is
    the last token. *)
Lemma mode_token_is_last
    (tool : list string -> Z) (f p : string) (r : bool) :
  p = "android" \/ p = "ios" ->
  exists front, composed tool f p r = [(front ++ [build_mode r])%list].
Proof.
  intros Hp. rewrite composed_supported by exact Hp.
  exists [ "flutter"; "build"; artifact_of p; "--flavor"; f; "-t";
           "lib/main.dart"; "--dart-define=ENV=" ++ f ].
  reflexivity.
Qed.

(** C2, as the specification states it, fails: a child that exits with 2
    makes [subprocess.run] raise, and the interpreter ends with status 1. *)
Lemma child_code_counterexample :
  ~ propagates_child_code (fun _ => 2%Z) "dev" "android" true.
Proof.
  intros H.
  destruct (H (command_line "apk" "dev" true)) as [Hcode _].
  - reflexivity.
  - discriminate.
  - vm_compute in Hcode. discriminate.
Qed.

(** C2 (amended): when the child that was started exits with a code other
    than zero, [build_flutter] raises [CalledProcessError] carrying that
    code, the process ends with exit status 1 whatever the code was, and
    the success line is not printed.  (With a NUL in the command line no
    child is started and the tool's code is never seen: the exception is
    [ValueError], the status 1 all the same.) *)
Theorem child_failure_exits_1
    (tool : list string -> Z) (f p : string) (r : bool) (cmd : list string) :
  composed tool f p r = [cmd] ->
  tool cmd <> 0%Z ->
  fst (run (build_flutter tool f p r) []) =
    inl (if existsb has_nul cmd then ValueError
         else CalledProcessError (tool cmd) cmd) /\
  process_exit_code (build_flutter tool f p r) = 1%Z /\
  ~ In (success_message p f) (process_stdout (build_flutter tool f p r)).
Proof.
  intros Hc Hrc.
  assert (Hp : p = "android" \/ p = "ios").
  { destruct (String.eqb_spec p "android") as [| Ha]; [now left |].
    destruct (String.eqb_spec p "ios") as [| Hi]; [now right |].
    rewrite (composed_unsupported tool f p r Ha Hi) in Hc. discriminate. }
  rewrite (composed_supported tool f p r Hp) in Hc. injection Hc as Hc.
  unfold process_exit_code, process_stdout.
  rewrite (run_supported tool f p r [] Hp). cbv zeta.
  rewrite <- (has_nul_command_line p f r Hp), Hc.
  apply Z.eqb_neq in Hrc. rewrite Hrc.
  destruct (existsb has_nul cmd); cbn [fst snd exit_status];
    (repeat split; cbn; intros [H | []]; discriminate H).
Qed.

Lemma child_failure_exits_1_witness :
  composed (fun _ => 2%Z) "dev" "android" true =
    [command_line "apk" "dev" true] /\
  2%Z <> 0%Z /\
  process_exit_code (build_flutter (fun _ => 2%Z) "dev" "android" true) = 1%Z.
Proof.
  split; [reflexivity |]. split; [discriminate |].
  apply (child_failure_exits_1 (fun _ => 2%Z) "dev" "android" true
           (command_line "apk" "dev" true));
    [reflexivity | discriminate].
Defined.

(** C3: scenario A.  With flavor [dev], platform [android] and no
    [--debug] flag, the one child process gets exactly the nine tokens
    below, and the exit status is 0 when the tool returns 0. *)
Theorem scenario_A (tool : list string -> Z) :
  let cmd := [ "flutter"; "build"; "apk"; "--flavor"; "dev"; "-t";
               "lib/main.dart"; "--dart-define=ENV=dev"; "--release" ] in
  let program := main tool (ret (mkNamespace "dev" "android" false)) in
  tool cmd = 0%Z ->
  composed tool "dev" "android" true = [cmd] /\
  spawned (snd (run program [])) = [cmd] /\
  process_exit_code program = 0%Z.
Proof.
  intros cmd program H0. subst program.
  unfold process_exit_code. rewrite run_main_parsed.
  cbn [flavor platform debug negb].
  split; [apply composed_supported; now left |].
  rewrite (run_supported tool "dev" "android" true []) by now left.
  cbv zeta. change (command_line (artifact_of "android") "dev" true) with cmd.
  rewrite H0. split; reflexivity.
Qed.

Lemma scenario_A_witness :
  (fun _ : list string => 0%Z)
    [ "flutter"; "build"; "apk"; "--flavor"; "dev"; "-t";
      "lib/main.dart"; "--dart-define=ENV=dev"; "--release" ] = 0%Z /\
  process_exit_code
    (main (fun _ => 0%Z) (ret (mkNamespace "dev" "android" false))) = 0%Z.
Proof.
  split; [reflexivity |].
  apply (scenario_A (fun _ => 0%Z)). reflexivity.
Defined.

(** C4: scenario B.  With flavor [prod], platform [ios] and the [--debug]
    flag, the one child process gets exactly the nine tokens below,
    whatever the tool then does. *)
Theorem scenario_B (tool : list string -> Z) :
  let cmd := [ "flutter"; "build"; "ios"; "--flavor"; "prod"; "-t";
               "lib/main.dart"; "--dart-define=ENV=prod"; "--debug" ] in
  let program := main tool (ret (mkNamespace "prod" "ios" true)) in
  composed tool "prod" "ios" false = [cmd] /\
  spawned (snd (run program [])) = [cmd].
Proof.
  intros cmd program. subst program.
  rewrite run_main_parsed. cbn [flavor platform debug negb].
  split; [apply composed_supported; now right |].
  rewrite (run_supported tool "prod" "ios" false []) by now right.
  cbv zeta. destruct (tool _ =? 0)%Z; reflexivity.
Qed.

(** C5: for a platform that is neither [android] nor [ios], whatever the
    flavor and the mode, the process prints one line that ends with the
    platform it was given, ends with exit status 1, and starts no child
    process. *)
Theorem unsupported_platform_rejected
    (tool : list string -> Z) (f p : string) (r : bool) :
  p <> "android" -> p <> "ios" ->
  process_stdout (build_flutter tool f p r) =
    ["❌ 不支持的平台: " ++ p ++ newline] /\
  fst (run (build_flutter tool f p r) []) = inl (SystemExit 1) /\
  process_exit_code (build_flutter tool f p r) = 1%Z /\
  composed tool f p r = [].
Proof.
  intros Ha Hi.
  unfold process_stdout, process_exit_code, composed.
  rewrite (run_unsupported tool f p r [] Ha Hi).
  repeat split.
Qed.

Lemma unsupported_platform_rejected_witness :
  "windows" <> "android" /\ "windows" <> "ios" /\
  process_exit_code (build_flutter (fun _ => 0%Z) "dev" "windows" true) = 1%Z /\
  composed (fun _ => 0%Z) "dev" "windows" true = [].
Proof.
  split; [discriminate |]. split; [discriminate |].
  split;
    apply (unsupported_platform_rejected (fun _ => 0%Z) "dev" "windows" true);
    discriminate.
Defined.

(** C6: composition is deterministic.  The token sequences a call of
    [build_flutter] passes to the tool depend on (flavor, platform, release)
    only: not on what the tool answers, and not on what the process did
    before the call. *)
Theorem composition_deterministic
    (tool1 tool2 : list string -> Z) (t1 t2 : trace)
    (f p : string) (r : bool) :
  composed tool1 f p r = composed tool2 f p r /\
  spawned (snd (run (build_flutter tool1 f p r) t1)) =
    (spawned t1 ++ composed tool1 f p r)%list /\
  spawned (snd (run (build_flutter tool2 f p r) t2)) =
    (spawned t2 ++ composed tool1 f p r)%list.
Proof.
  split; [| split].
  - rewrite <- (app_nil_l (composed tool2 f p r)).
    apply (spawned_build_flutter tool1 tool2 f p r []).
  - apply spawned_build_flutter.
  - apply spawned_build_flutter.
Qed.

(** C7: appending the mode token through the second [if]/[else] of each
    platform branch is the same program as appending the [build_mode]
    computed at the top of the function. *)
Theorem mode_recomputation_redundant
    (tool : list string -> Z) (f p : string) (r : bool) :
  build_flutter tool f p r = build_flutter_reuse tool f p r.
Proof.
  unfold build_flutter, build_flutter_reuse, build_mode.
  destruct r; reflexivity.
Qed.

(** C8: the entry point calls [build_flutter] with [release = not debug].
    Whenever parsing returns the namespace (flavor, platform, debug), the
    rest of [main] is [build_flutter flavor platform (not debug)], and the
    child processes started are the ones composed from those arguments: the
    runner receives what the composer built. *)
Theorem main_release_is_not_debug
    (tool : list string -> Z) (parse_args : M Namespace)
    (f p : string) (d : bool) (t t' : trace) :
  run parse_args t = (inr (mkNamespace f p d), t') ->
  run (main tool parse_args) t =
    run (build_flutter tool f p (if d then false else true)) t' /\
  spawned (snd (run (main tool parse_args) t)) =
    (spawned t' ++ composed tool f p (if d then false else true))%list.
Proof.
  intros Hparse. rewrite run_main, Hparse. cbn [flavor platform debug].
  change (negb d) with (if d then false else true).
  split; [reflexivity |].
  apply spawned_build_flutter.
Qed.

Lemma main_release_is_not_debug_witness :
  run (ret (mkNamespace "dev" "android" false) : M Namespace) [] =
    (inr (mkNamespace "dev" "android" false), []) /\
  run (main (fun _ => 0%Z) (ret (mkNamespace "dev" "android" false))) [] =
    run (build_flutter (fun _ => 0%Z) "dev" "android" true) [].
Proof.
  split; [reflexivity |].
  apply (main_release_is_not_debug (fun _ => 0%Z)
           (ret (mkNamespace "dev" "android" false))
           "dev" "android" false [] []).
  reflexivity.
Defined.

(** Without [--debug] the build is a release build; with it, a debug
    build. *)
Lemma main_without_debug (tool : list string -> Z) (f p : string) (t : trace) :
  run (main tool (ret (mkNamespace f p false))) t =
    run (build_flutter tool f p true) t.
Proof. apply run_main_parsed. Qed.

Lemma main_with_debug (tool : list string -> Z) (f p : string) (t : trace) :
  run (main tool (ret (mkNamespace f p true))) t =
    run (build_flutter tool f p false) t.
Proof. apply run_main_parsed. Qed.

(** A parser that raises ends [main] before [build_flutter] is reached. *)
Lemma main_parse_error
    (tool : list string -> Z) (parse_args : M Namespace)
    (e : exn) (t t' : trace) :
  run parse_args t = (inl e, t') ->
  run (main tool parse_args) t = (inl e, t').
Proof. intros H. rewrite run_main, H. reflexivity. Qed.

(** C9: the platform is recognised by exact string equality.  [Android],
    [IOS] and [android] followed by a space are rejected with exit status 1
    and without a child process, and in general no child process is
    started exactly when the platform is not one of the two strings. *)
Theorem platform_match_exact
    (tool : list string -> Z) (f : string) (r : bool) :
  Forall (fun p =>
            process_exit_code (build_flutter tool f p r) = 1%Z /\
            fst (run (build_flutter tool f p r) []) = inl (SystemExit 1) /\
            composed tool f p r = [])
         ["Android"; "IOS"; "android "] /\
  (forall p, composed tool f p r = [] <-> (p <> "android" /\ p <> "ios")).
Proof.
  split.
  - repeat constructor.
  - intros p. split.
    + intros Hc. split; intros ->;
        rewrite composed_supported in Hc by tauto; discriminate.
    + intros [Ha Hi]. apply composed_unsupported; assumption.
Qed.



(** ** Further properties of [build_flutter] and [main] *)

Lemma supported_spec (p : string) :
  supported p = true <-> p = "android" \/ p = "ios".
Proof.
  unfold supported. rewrite orb_true_iff, !String.eqb_eq. reflexivity.
Qed.

Lemma unsupported_spec (p : string) :
  supported p = false <-> p <> "android" /\ p <> "ios".
Proof.
  unfold supported. rewrite orb_false_iff, !String.eqb_neq. reflexivity.
Qed.

(** Everything a call does, from any trace: what it adds to the trace and
    how it ends. *)
Lemma run_build_flutter
    (tool : list string -> Z) (f p : string) (r : bool) (t : trace) :
  let cmd := command_line (artifact_of p) f r in
  run (build_flutter tool f p r) t =
    if supported p then
      if has_nul f
      then (inl ValueError,
            (t ++ [Print (announce cmd); Spawn cmd])%list)
      else if (tool cmd =? 0)%Z
      then (inr tt,
            (t ++ [Print (announce cmd); Spawn cmd;
                   Print (success_message p f)])%list)
      else (inl (CalledProcessError (tool cmd) cmd),
            (t ++ [Print (announce cmd); Spawn cmd])%list)
    else (inl (SystemExit 1), (t ++ [Print (unsupported_message p)])%list).
Proof.
  intros cmd. destruct (supported p) eqn:Hs.
  - apply run_supported, supported_spec, Hs.
  - apply unsupported_spec in Hs as [Ha Hi]. apply run_unsupported; assumption.
Qed.

(** The success line differs from the two other lines the function prints. *)
Lemma announce_not_success (cmd : list string) (p f : string) :
  announce cmd <> success_message p f.
Proof. unfold announce, success_message. cbn. discriminate. Qed.

Lemma unsupported_not_success (p' p f : string) :
  unsupported_message p' <> success_message p f.
Proof. unfold unsupported_message, success_message. cbn. discriminate. Qed.


(** X2: the success line is on standard output exactly when the exit
    status is 0: it is never printed for a failed or refused build, and
    always for one that succeeded. *)
Theorem success_line_iff_exit_0
    (tool : list string -> Z) (f p : string) (r : bool) :
  In (success_message p f) (process_stdout (build_flutter tool f p r)) <->
  process_exit_code (build_flutter tool f p r) = 0%Z.
Proof.
  unfold process_stdout, process_exit_code.
  rewrite run_build_flutter. cbv zeta.
  destruct (supported p);
    [destruct (has_nul f); [| destruct (tool _ =? 0)%Z] |];
    cbn [fst snd app printed exit_status In].
  - split; [| discriminate].
    intros [H | []]. now apply announce_not_success in H.
  - split; [reflexivity | tauto].
  - split; [| discriminate].
    intros [H | []]. now apply announce_not_success in H.
  - split; [| discriminate].
    intros [H | []]. now apply unsupported_not_success in H.
Qed.

(** X3: on a supported platform the command line is printed, as the tokens
    joined by single spaces after the fixed prefix, immediately before
    [subprocess.run] is called with those tokens, also when the call then
    fails. *)
Theorem announce_before_spawn
    (tool : list string -> Z) (f p : string) (r : bool) (t : trace) :
  supported p = true ->
  exists cmd rest,
    composed tool f p r = [cmd] /\
    snd (run (build_flutter tool f p r) t) =
      (t ++ Print ("🚀 打包命令： " ++ String.concat " " cmd ++ newline)
            :: Spawn cmd :: rest)%list.
Proof.
  intros Hs. pose proof (proj1 (supported_spec p) Hs) as Hp.
  exists (command_line (artifact_of p) f r).
  rewrite (composed_supported tool f p r Hp).
  rewrite (run_supported tool f p r t Hp). cbv zeta.
  destruct (has_nul f); [| destruct (tool _ =? 0)%Z];
    eexists; (split; [reflexivity |]); reflexivity.
Qed.

Lemma announce_before_spawn_witness :
  supported "ios" = true /\
  exists cmd rest,
    composed (fun _ => 3%Z) "prod" "ios" false = [cmd] /\
    snd (run (build_flutter (fun _ => 3%Z) "prod" "ios" false) []) =
      (Print ("🚀 打包命令： " ++ String.concat " " cmd ++ newline)
         :: Spawn cmd :: rest)%list.
Proof.
  split; [reflexivity |].
  apply (announce_before_spawn (fun _ => 3%Z) "prod" "ios" false []).
  reflexivity.
Defined.

(** X4: on supported platforms the command line determines the request:
    two calls that hand the tool the same token sequence were given the
    same flavor, platform and mode. *)
Theorem composition_injective
    (tool tool' : list string -> Z) (f f' p p' : string) (r r' : bool) :
  supported p = true -> supported p' = true ->
  composed tool f p r = composed tool' f' p' r' ->
  f = f' /\ p = p' /\ r = r'.
Proof.
  intros Hs Hs' Heq.
  apply supported_spec in Hs, Hs'.
  rewrite (composed_supported tool f p r Hs) in Heq.
  rewrite (composed_supported tool' f' p' r' Hs') in Heq.
  unfold command_line in Heq.
  injection Heq as Hart Hf _ Hmode.
  repeat split.
  - exact Hf.
  - destruct Hs as [-> | ->], Hs' as [-> | ->];
      first [reflexivity | discriminate Hart].
  - destruct r, r'; first [reflexivity | discriminate Hmode].
Qed.

Lemma composition_injective_witness :
  supported "android" = true /\ supported "android" = true /\
  composed (fun _ => 0%Z) "dev" "android" true =
    composed (fun _ => 1%Z) "dev" "android" true /\
  "dev" = "dev" /\ "android" = "android" /\ true = true.
Proof.
  split; [reflexivity |]. split; [reflexivity |]. split; [reflexivity |].
  apply (composition_injective (fun _ => 0%Z) (fun _ => 1%Z)
           "dev" "dev" "android" "android" true true);
    reflexivity.
Defined.

(** X5: a call only adds to what the process did before: the earlier
    trace is kept as it was; [print] is called once or twice;
    [subprocess.run] is called once on a supported platform and not at all
    otherwise, so never more than once. *)
Theorem build_extends_trace
    (tool : list string -> Z) (f p : string) (r : bool) (t : trace) :
  exists u,
    snd (run (build_flutter tool f p r) t) = (t ++ u)%list /\
    length (spawned u) = (if supported p then 1 else 0) /\
    1 <= length (printed u) <= 2.
Proof.
  rewrite run_build_flutter. cbv zeta.
  destruct (supported p);
    [destruct (has_nul f); [| destruct (tool _ =? 0)%Z] |];
    eexists; (split; [reflexivity |]); cbn [spawned printed length]; lia.
Qed.

(** X6: on a supported platform the mode changes the last token and
    nothing else: the release and the debug command lines share their
    first eight tokens and end in [--release] and [--debug]. *)
Theorem mode_changes_last_token_only
    (tool : list string -> Z) (f p : string) :
  supported p = true ->
  exists front,
    length front = 8 /\
    composed tool f p true = [(front ++ ["--release"])%list] /\
    composed tool f p false = [(front ++ ["--debug"])%list].
Proof.
  intros Hs. apply supported_spec in Hs.
  exists [ "flutter"; "build"; artifact_of p; "--flavor"; f; "-t";
           "lib/main.dart"; "--dart-define=ENV=" ++ f ].
  rewrite !composed_supported by exact Hs. repeat split.
Qed.

Lemma mode_changes_last_token_only_witness :
  supported "ios" = true /\
  exists front,
    length front = 8 /\
    composed (fun _ => 0%Z) "test" "ios" true =
      [(front ++ ["--release"])%list] /\
    composed (fun _ => 0%Z) "test" "ios" false =
      [(front ++ ["--debug"])%list].
Proof.
  split; [reflexivity |].
  apply (mode_changes_last_token_only (fun _ => 0%Z) "test" "ios").
  reflexivity.
Defined.

(** X7: two calls in a row: the second one starts its child only when the
    first ended normally.  A refused platform or a failed child in the
    first call raises, and the second request is never composed. *)
Theorem second_build_needs_first
    (tool : list string -> Z)
    (f1 p1 : string) (r1 : bool) (f2 p2 : string) (r2 : bool) :
  spawned (snd (run (build_flutter tool f1 p1 r1 ;;
                     build_flutter tool f2 p2 r2) [])) =
    (composed tool f1 p1 r1 ++
     if (process_exit_code (build_flutter tool f1 p1 r1) =? 0)%Z
     then composed tool f2 p2 r2 else [])%list.
Proof.
  rewrite run_bind. unfold process_exit_code, composed at 1.
  destruct (run (build_flutter tool f1 p1 r1) []) as [[e | []] t1] eqn:H1;
    cbn [fst snd exit_status].
  - assert (He : (exit_status (inl e : exn + unit) =? 0)%Z = false).
    { rewrite run_build_flutter in H1. cbv zeta in H1.
      destruct (supported p1);
        [destruct (has_nul f1); [| destruct (tool _ =? 0)%Z] |];
        inversion H1; reflexivity. }
    cbn [exit_status] in He. rewrite He, app_nil_r. reflexivity.
  - cbn [Z.eqb]. apply spawned_build_flutter.
Qed.



(** X9: run as a script, when parsing the arguments raises (a usage error
    or a request for help), the script ends with the parser's exception and
    exit status, and adds nothing to what the parser did: no line from
    [build_flutter] and no child process. *)
Theorem script_parse_error
    (tool : list string -> Z) (parse_args : M Namespace)
    (e : exn) (t' : trace) :
  run parse_args [] = (inl e, t') ->
  run (module_toplevel tool parse_args "__main__") [] = (inl e, t') /\
  process_exit_code (module_toplevel tool parse_args "__main__") =
    exit_status (inl e : exn + unit).
Proof.
  intros Hparse. unfold process_exit_code, module_toplevel.
  cbn [String.eqb Ascii.eqb Bool.eqb].
  rewrite run_main, Hparse. split; reflexivity.
Qed.

Lemma script_parse_error_witness :
  run (sys_exit 2 : M Namespace) [] = (inl (SystemExit 2), []) /\
  process_exit_code
    (module_toplevel (fun _ => 0%Z) (sys_exit 2) "__main__") = 2%Z.
Proof.
  split; [reflexivity |].
  apply (script_parse_error (fun _ => 0%Z) (sys_exit 2) (SystemExit 2) []).
  reflexivity.
Defined.

(** Under any other module name the top level calls nothing. *)
Lemma import_has_no_effect
    (tool : list string -> Z) (parse_args : M Namespace)
    (name : string) (t : trace) :
  name <> "__main__" ->
  run (module_toplevel tool parse_args name) t = (inr tt, t).
Proof.
  intros Hn. unfold module_toplevel.
  apply String.eqb_neq in Hn. rewrite Hn. reflexivity.
Qed.
